(** * prompt_toolkit.filters.cli : filters over a [CommandLineInterface]

    A shallow embedding of [src/prompt_toolkit/filters/cli.py].  Every
    class of that module is a [Filter] whose [__call__] reads a few
    attributes of the command line interface and answers a boolean.  The
    attributes are kept in records shaped like the Python objects the
    code walks through ([cli.vi_state.input_mode],
    [cli.current_buffer.read_only()], ...). *)

From Stdlib Require Import String List Bool ZArith.
Import ListNotations.
Local Open Scope string_scope.

(* ------------------------------------------------------------------ *)
(** ** Enumerations imported by the module *)

(** Modelled from the spec: [prompt_toolkit.enums.EditingMode] is imported
    by cli.py but its declaration is not part of the sources.  The spec
    gives [editing_mode: enum{emacs, vi}]. *)
Module EditingMode.
Inductive t : Set := VI | EMACS.

Definition eqb (a b : t) : bool :=
    match a, b with
    | VI, VI | EMACS, EMACS => true
    | _, _ => false
    end.
End EditingMode.

(** Modelled from the spec: [prompt_toolkit.key_binding.vi_state.InputMode]
    (imported as [ViInputMode]) is not part of the sources.  [InViMode]
    asserts that its argument is a string and compares it with these
    constants, so they are strings; the spec names them
    [enum{insert, navigation, replace, ...}].  The development only relies
    on the constants being pairwise distinct. *)
Module ViInputMode.
Definition INSERT : string := "insert".
Definition NAVIGATION : string := "navigation".
Definition REPLACE : string := "replace".
End ViInputMode.

(* ------------------------------------------------------------------ *)
(** ** The objects reachable from a [CommandLineInterface] *)

(** Payloads of optional attributes.  The filters only test them for
    [None] or for truthiness, never look inside. *)
Record SelectionState := { original_cursor_position : Z }.
Record CompletionState := { current_completions : list string }.
Record ValidationError := { message : string }.
Inductive OperatorFunc := operator (name : string).

Record Buffer := {
  selection_state : option SelectionState;
  complete_state : option CompletionState;
  is_multiline : bool;
  read_only : bool;
  validation_error : option ValidationError
}.

Record BufferMapping := { focus_stack : list string }.

Record InputProcessor := { arg : option Z }.

Record Renderer := { height_is_known : bool }.

Record ViState := {
  operator_func : option OperatorFunc;
  waiting_for_digraph : bool;
  input_mode : string
}.

Record CommandLineInterface := {
  current_buffer_name : string;
  buffers : BufferMapping;
  current_buffer : Buffer;
  input_processor : InputProcessor;
  is_searching : bool;
  is_returning : bool;
  is_aborting : bool;
  is_exiting : bool;
  renderer : Renderer;
  vi_state : ViState;
  editing_mode : EditingMode.t
}.

(** Modelled from the spec: the property [CommandLineInterface.is_done],
    read by [IsDone.__call__], is not part of the sources.  The spec says
    it is true iff any of returning, aborting, exiting is true. *)
Definition is_done (cli : CommandLineInterface) : bool :=
  is_exiting cli || is_aborting cli || is_returning cli.

(** Python truthiness of an attribute that holds [None] or an object
    without [__bool__]/[__len__] (a function, a [SelectionState]). *)
Definition truthy {A : Type} (o : option A) : bool :=
  match o with Some _ => true | None => false end.

(** [x is not None]. *)
Definition is_not_None {A : Type} (o : option A) : bool :=
  match o with Some _ => true | None => false end.

(** [x in l] for a list of buffer names. *)
Definition py_in (x : string) (l : list string) : bool :=
  existsb (String.eqb x) l.

(** Functional updates of the nested records, used to vary one attribute
    of a snapshot. *)
Definition with_waiting_for_digraph (b : bool) (cli : CommandLineInterface)
  : CommandLineInterface :=
  {| current_buffer_name := current_buffer_name cli;
     buffers := buffers cli;
     current_buffer := current_buffer cli;
     input_processor := input_processor cli;
     is_searching := is_searching cli;
     is_returning := is_returning cli;
     is_aborting := is_aborting cli;
     is_exiting := is_exiting cli;
     renderer := renderer cli;
     vi_state := {| operator_func := operator_func (vi_state cli);
                    waiting_for_digraph := b;
                    input_mode := input_mode (vi_state cli) |};
     editing_mode := editing_mode cli |}.

Definition with_editing_mode (em : EditingMode.t) (cli : CommandLineInterface)
  : CommandLineInterface :=
  {| current_buffer_name := current_buffer_name cli;
     buffers := buffers cli;
     current_buffer := current_buffer cli;
     input_processor := input_processor cli;
     is_searching := is_searching cli;
     is_returning := is_returning cli;
     is_aborting := is_aborting cli;
     is_exiting := is_exiting cli;
     renderer := renderer cli;
     vi_state := vi_state cli;
     editing_mode := em |}.

(* ------------------------------------------------------------------ *)
(** ** The bodies of the [__call__] methods *)

Module Call.

Definition HasFocus (buffer_name : string) (cli : CommandLineInterface) : bool :=
    String.eqb (current_buffer_name cli) buffer_name.

Definition InFocusStack (buffer_name : string) (cli : CommandLineInterface) : bool :=
    py_in buffer_name (focus_stack (buffers cli)).

Definition HasSelection (cli : CommandLineInterface) : bool :=
    truthy (selection_state (current_buffer cli)).

Definition HasCompletions (cli : CommandLineInterface) : bool :=
    is_not_None (complete_state (current_buffer cli)).

Definition IsMultiline (cli : CommandLineInterface) : bool :=
    is_multiline (current_buffer cli).

Definition IsReadOnly (cli : CommandLineInterface) : bool :=
    read_only (current_buffer cli).

Definition HasValidationError (cli : CommandLineInterface) : bool :=
    is_not_None (validation_error (current_buffer cli)).

Definition HasArg (cli : CommandLineInterface) : bool :=
    is_not_None (arg (input_processor cli)).

Definition HasSearch (cli : CommandLineInterface) : bool :=
    is_searching cli.

Definition IsReturning (cli : CommandLineInterface) : bool :=
    is_returning cli.

Definition IsAborting (cli : CommandLineInterface) : bool :=
    is_aborting cli.

Definition IsExiting (cli : CommandLineInterface) : bool :=
    is_exiting cli.

Definition IsDone (cli : CommandLineInterface) : bool :=
    is_done cli.

Definition RendererHeightIsKnown (cli : CommandLineInterface) : bool :=
    height_is_known (renderer cli).

  (** [InViMode.__call__]: the early [return False] while an operator or a
      digraph is awaited, then the comparison of the mode reported for the
      buffer with [self.mode]. *)
Definition InViMode (mode : string) (cli : CommandLineInterface) : bool :=
    let vi_state := vi_state cli in
    if truthy (operator_func vi_state) || waiting_for_digraph vi_state then
      false
    else
      let input_mode :=
        if read_only (current_buffer cli) then ViInputMode.NAVIGATION
        else input_mode vi_state in
      String.eqb input_mode mode.

Definition InEditingMode (mode : EditingMode.t) (cli : CommandLineInterface) : bool :=
    EditingMode.eqb (editing_mode cli) mode.

  (** [CanInsert.__call__]: [a != VI or (not op and mode == INSERT)]. *)
Definition CanInsert (cli : CommandLineInterface) : bool :=
    negb (EditingMode.eqb (editing_mode cli) EditingMode.VI)
    || (negb (truthy (operator_func (vi_state cli)))
        && String.eqb (input_mode (vi_state cli)) ViInputMode.INSERT).

End Call.

(* ------------------------------------------------------------------ *)
(** ** The [Filter] algebra *)

(** What a call gives back: a value, or a raised exception. *)
Inductive result (A : Type) : Type :=
| Ok (a : A)
| Raise (exn : string).
Arguments Ok {A} a.
Arguments Raise {A} exn.

(** Modelled from the spec: the base class [Filter] (module [.base],
    imported by cli.py) is not part of the sources.  The spec gives it an
    [evaluate(state) -> bool] contract and three combinators, AND, OR and
    NOT, each building a new filter that owns its operands.  [Leaf] is a
    subclass that implements [__call__] itself. *)
Inductive Filter : Type :=
| Leaf (call : CommandLineInterface -> result bool)
| AND (self other : Filter)
| OR (self other : Filter)
| NOT (self : Filter).

(** Evaluation keeps the list of the leaves whose [__call__] has run, in
    order, next to the outcome; a raised exception ends the evaluation. *)
Definition Eval (A : Type) : Type := (list Filter * result A)%type.

Definition ret {A : Type} (a : A) : Eval A := ([], Ok a).

Definition bind {A B : Type} (m : Eval A) (k : A -> Eval B) : Eval B :=
  match m with
  | (log, Ok a) => let (log', r) := k a in ((log ++ log')%list, r)
  | (log, Raise e) => (log, Raise e)
  end.

Notation "x <- m ;; k" := (bind m (fun x => k))
  (at level 61, m at next level, right associativity).

(** Modelled from the spec: AND evaluates [self] first and, if false,
    answers false without evaluating [other]; OR evaluates [self] first
    and, if true, answers true without evaluating [other]; NOT negates. *)
Fixpoint run (f : Filter) (cli : CommandLineInterface) : Eval bool :=
  match f with
  | Leaf call => ([Leaf call], call cli)
  | AND self other =>
      a <- run self cli ;;
      if a then run other cli else ret false
  | OR self other =>
      a <- run self cli ;;
      if a then ret true else run other cli
  | NOT self =>
      a <- run self cli ;;
      ret (negb a)
  end.

Definition evaluate (f : Filter) (cli : CommandLineInterface) : result bool :=
  snd (run f cli).

Definition calls (f : Filter) (cli : CommandLineInterface) : list Filter :=
  fst (run f cli).

(** The classes of cli.py as filters.  None of their bodies raises on a
    snapshot that has every attribute. *)
Definition pure_filter (call : CommandLineInterface -> bool) : Filter :=
  Leaf (fun cli => Ok (call cli)).

Definition HasFocus (buffer_name : string) : Filter := pure_filter (Call.HasFocus buffer_name).
Definition InFocusStack (buffer_name : string) : Filter := pure_filter (Call.InFocusStack buffer_name).
Definition HasSelection : Filter := pure_filter Call.HasSelection.
Definition HasCompletions : Filter := pure_filter Call.HasCompletions.
Definition IsMultiline : Filter := pure_filter Call.IsMultiline.
Definition IsReadOnly : Filter := pure_filter Call.IsReadOnly.
Definition HasValidationError : Filter := pure_filter Call.HasValidationError.
Definition HasArg : Filter := pure_filter Call.HasArg.
Definition HasSearch : Filter := pure_filter Call.HasSearch.
Definition IsReturning : Filter := pure_filter Call.IsReturning.
Definition IsAborting : Filter := pure_filter Call.IsAborting.
Definition IsExiting : Filter := pure_filter Call.IsExiting.
Definition IsDone : Filter := pure_filter Call.IsDone.
Definition RendererHeightIsKnown : Filter := pure_filter Call.RendererHeightIsKnown.
Definition InViMode (mode : string) : Filter := pure_filter (Call.InViMode mode).
Definition InEditingMode (mode : EditingMode.t) : Filter := pure_filter (Call.InEditingMode mode).
Definition CanInsert : Filter := pure_filter Call.CanInsert.

(** The mode [InViMode] compares with: the spec's effective input mode. *)
Definition effective_input_mode (cli : CommandLineInterface) : string :=
  if read_only (current_buffer cli) then ViInputMode.NAVIGATION
  else input_mode (vi_state cli).

(* ------------------------------------------------------------------ *)
(** ** Snapshots used as concrete inputs *)

Definition plain_buffer (ro : bool) : Buffer :=
  {| selection_state := None;
     complete_state := None;
     is_multiline := false;
     read_only := ro;
     validation_error := None |}.

Definition snapshot (em : EditingMode.t) (ro : bool)
    (op : option OperatorFunc) (digraph : bool) (mode : string)
  : CommandLineInterface :=
  {| current_buffer_name := "DEFAULT_BUFFER";
     buffers := {| focus_stack := ["DEFAULT_BUFFER"] |};
     current_buffer := plain_buffer ro;
     input_processor := {| arg := None |};
     is_searching := false;
     is_returning := false;
     is_aborting := false;
     is_exiting := false;
     renderer := {| height_is_known := true |};
     vi_state := {| operator_func := op;
                    waiting_for_digraph := digraph;
                    input_mode := mode |};
     editing_mode := em |}.

(** A filter whose evaluation raises. *)
Definition raising : Filter := Leaf (fun _ => Raise "RuntimeError").

(* ------------------------------------------------------------------ *)
(** ** Textual representation *)

(** An instance of one of the classes of cli.py: the class together with
    the arguments its [__init__] stores. *)
Module Cls.
Inductive t : Type :=
| HasFocus (buffer_name : string)
| InFocusStack (buffer_name : string)
| HasSelection
| HasCompletions
| IsMultiline
| IsReadOnly
| HasValidationError
| HasArg
| HasSearch
| IsReturning
| IsAborting
| IsExiting
| IsDone
| RendererHeightIsKnown
| InViMode (mode : string)
| InEditingMode (editing_mode : EditingMode.t)
| CanInsert.

Definition class_name (f : t) : string :=
  match f with
  | HasFocus _ => "HasFocus"
  | InFocusStack _ => "InFocusStack"
  | HasSelection => "HasSelection"
  | HasCompletions => "HasCompletions"
  | IsMultiline => "IsMultiline"
  | IsReadOnly => "IsReadOnly"
  | HasValidationError => "HasValidationError"
  | HasArg => "HasArg"
  | HasSearch => "HasSearch"
  | IsReturning => "IsReturning"
  | IsAborting => "IsAborting"
  | IsExiting => "IsExiting"
  | IsDone => "IsDone"
  | RendererHeightIsKnown => "RendererHeightIsKnown"
  | InViMode _ => "InViMode"
  | InEditingMode _ => "InEditingMode"
  | CanInsert => "CanInsert"
  end.
End Cls.

(** The filter an instance evaluates as. *)
Definition filter_of (f : Cls.t) : Filter :=
  match f with
  | Cls.HasFocus buffer_name => HasFocus buffer_name
  | Cls.InFocusStack buffer_name => InFocusStack buffer_name
  | Cls.HasSelection => HasSelection
  | Cls.HasCompletions => HasCompletions
  | Cls.IsMultiline => IsMultiline
  | Cls.IsReadOnly => IsReadOnly
  | Cls.HasValidationError => HasValidationError
  | Cls.HasArg => HasArg
  | Cls.HasSearch => HasSearch
  | Cls.IsReturning => IsReturning
  | Cls.IsAborting => IsAborting
  | Cls.IsExiting => IsExiting
  | Cls.IsDone => IsDone
  | Cls.RendererHeightIsKnown => RendererHeightIsKnown
  | Cls.InViMode mode => InViMode mode
  | Cls.InEditingMode mode => InEditingMode mode
  | Cls.CanInsert => CanInsert
  end.

Section Repr.

(** What [%r] prints for a text string and for an editing mode: Python's
    built-in [repr], whose output depends on the interpreter (a [u] prefix
    under Python 2), is taken as given. *)
Variable py_repr : string -> string.
Variable mode_repr : EditingMode.t -> string.

(** What [%r] is given, printed; empty for a class without arguments. *)
Definition args_repr (f : Cls.t) : string :=
  match f with
  | Cls.HasFocus buffer_name => py_repr buffer_name
  | Cls.InFocusStack buffer_name => py_repr buffer_name
  | Cls.InViMode mode => py_repr mode
  | Cls.InEditingMode editing_mode => mode_repr editing_mode
  | _ => ""
  end.

(** The [__repr__] methods. *)
Definition repr (f : Cls.t) : string :=
  match f with
  | Cls.HasFocus buffer_name => "HasFocus(" ++ py_repr buffer_name ++ ")"
  | Cls.InFocusStack buffer_name => "InFocusStack(" ++ py_repr buffer_name ++ ")"
  | Cls.HasSelection => "HasSelection()"
  | Cls.HasCompletions => "HasCompletions()"
  | Cls.IsMultiline => "IsMultiline()"
  | Cls.IsReadOnly => "IsReadOnly()"
  | Cls.HasValidationError => "HasValidationError()"
  | Cls.HasArg => "HasArg()"
  | Cls.HasSearch => "HasSearch()"
  | Cls.IsReturning => "IsReturning()"
  | Cls.IsAborting => "IsAborting()"
  | Cls.IsExiting => "IsExiting()"
  | Cls.IsDone => "IsDone()"
  | Cls.RendererHeightIsKnown => "RendererHeightIsKnown()"
  | Cls.InViMode mode => "InViMode(" ++ py_repr mode ++ ")"
  | Cls.InEditingMode editing_mode => "InEditingMode(" ++ mode_repr editing_mode ++ ")"
  | Cls.CanInsert => "CanInsert()"
  end.

End Repr.

(** Two printers used as concrete inputs: text between single quotes, and
    the mode's name between single quotes. *)
Definition quoted (s : string) : string := "'" ++ s ++ "'".

Definition quoted_mode (m : EditingMode.t) : string :=
  match m with
  | EditingMode.VI => quoted "VI"
  | EditingMode.EMACS => quoted "EMACS"
  end.

(* ------------------------------------------------------------------ *)
(** ** Basic facts *)

Lemma EditingMode_eqb_eq (a b : EditingMode.t) :
  EditingMode.eqb a b = true <-> a = b.
Proof. destruct a, b; simpl; split; congruence. Qed.

Lemma EditingMode_not_VI (a : EditingMode.t) :
  a <> EditingMode.VI <-> a = EditingMode.EMACS.
Proof. destruct a; split; congruence. Qed.

Lemma truthy_false {A : Type} (o : option A) : truthy o = false <-> o = None.
Proof. destruct o; simpl; split; congruence. Qed.

Lemma Ok_inj {A : Type} (a b : A) : Ok a = Ok b <-> a = b.
Proof. split; congruence. Qed.

(** A leaf of cli.py never raises, and only itself is called. *)
Lemma evaluate_pure (call : CommandLineInterface -> bool) cli :
  evaluate (pure_filter call) cli = Ok (call cli).
Proof. reflexivity. Qed.

Lemma calls_Leaf call cli : calls (Leaf call) cli = [Leaf call].
Proof. reflexivity. Qed.

(** The outcome of a composite, with Python's lazy [and], [or], [not] on
    outcomes that may be exceptions. *)
Lemma evaluate_AND f g cli :
  evaluate (AND f g) cli =
  match evaluate f cli with
  | Ok true => evaluate g cli
  | Ok false => Ok false
  | Raise e => Raise e
  end.
Proof.
  unfold evaluate; simpl.
  destruct (run f cli) as [log [[|]|e]]; simpl; trivial.
  destruct (run g cli); reflexivity.
Qed.

Lemma evaluate_OR f g cli :
  evaluate (OR f g) cli =
  match evaluate f cli with
  | Ok true => Ok true
  | Ok false => evaluate g cli
  | Raise e => Raise e
  end.
Proof.
  unfold evaluate; simpl.
  destruct (run f cli) as [log [[|]|e]]; simpl; trivial.
  destruct (run g cli); reflexivity.
Qed.

Lemma evaluate_NOT f cli :
  evaluate (NOT f) cli =
  match evaluate f cli with
  | Ok a => Ok (negb a)
  | Raise e => Raise e
  end.
Proof.
  unfold evaluate; simpl.
  destruct (run f cli) as [log [a|e]]; reflexivity.
Qed.

(** The leaves a conjunction calls: those of [self], then those of
    [other] only when [self] answered true. *)
Lemma calls_AND f g cli :
  calls (AND f g) cli =
  match evaluate f cli with
  | Ok true => calls f cli ++ calls g cli
  | _ => calls f cli
  end%list.
Proof.
  unfold calls, evaluate; simpl.
  destruct (run f cli) as [log [[|]|e]]; simpl; trivial.
  - destruct (run g cli); reflexivity.
  - now rewrite app_nil_r.
Qed.

Lemma calls_OR f g cli :
  calls (OR f g) cli =
  match evaluate f cli with
  | Ok false => calls f cli ++ calls g cli
  | _ => calls f cli
  end%list.
Proof.
  unfold calls, evaluate; simpl.
  destruct (run f cli) as [log [[|]|e]]; simpl; trivial.
  - now rewrite app_nil_r.
  - destruct (run g cli); reflexivity.
Qed.

(** [InViMode] unfolded once: pending operator or digraph, else the
    comparison with the effective input mode. *)
Lemma InViMode_call_eq mode cli :
  Call.InViMode mode cli =
  negb (truthy (operator_func (vi_state cli)) || waiting_for_digraph (vi_state cli))
  && String.eqb (effective_input_mode cli) mode.
Proof.
  unfold Call.InViMode, effective_input_mode.
  destruct (truthy _ || _); reflexivity.
Qed.

Lemma InViMode_true_iff mode cli :
  evaluate (InViMode mode) cli = Ok true <->
  operator_func (vi_state cli) = None /\
  waiting_for_digraph (vi_state cli) = false /\
  effective_input_mode cli = mode.
Proof.
  unfold InViMode. rewrite evaluate_pure, Ok_inj, InViMode_call_eq.
  rewrite andb_true_iff, negb_true_iff, orb_false_iff, truthy_false, String.eqb_eq.
  tauto.
Qed.

(* ------------------------------------------------------------------ *)
(** ** [InViMode] *)

(** C1.  While a Vi operator is pending ([operator_func] is set) or a
    digraph is awaited ([waiting_for_digraph]), [InViMode(m)] answers
    false, for every mode [m]. *)
Theorem InViMode_pending_is_false (m : string) (cli : CommandLineInterface) :
  truthy (operator_func (vi_state cli)) = true
  \/ waiting_for_digraph (vi_state cli) = true ->
  evaluate (InViMode m) cli = Ok false.
Proof.
  intros H. unfold InViMode. rewrite evaluate_pure. f_equal.
  unfold Call.InViMode.
  destruct H as [H | H]; rewrite H.
  - reflexivity.
  - now rewrite orb_true_r.
Qed.

Lemma InViMode_pending_is_false_witness :
  (truthy (operator_func
             (vi_state (snapshot EditingMode.VI false (Some (operator "delete"))
                                 false ViInputMode.NAVIGATION))) = true
   \/ waiting_for_digraph
        (vi_state (snapshot EditingMode.VI false (Some (operator "delete"))
                            false ViInputMode.NAVIGATION)) = true)
  /\ evaluate (InViMode ViInputMode.NAVIGATION)
       (snapshot EditingMode.VI false (Some (operator "delete"))
                 false ViInputMode.NAVIGATION) = Ok false.
Proof.
  split.
  - left; reflexivity.
  - apply InViMode_pending_is_false. left; reflexivity.
Defined.

(** C2.  On a read-only buffer, with no operator pending and no digraph
    awaited, [InViMode(NAVIGATION)] answers true whatever
    [vi_state.input_mode] holds, and [InViMode(m)] answers false for every
    other mode [m]. *)
Theorem InViMode_read_only_navigation (cli : CommandLineInterface) :
  read_only (current_buffer cli) = true ->
  operator_func (vi_state cli) = None ->
  waiting_for_digraph (vi_state cli) = false ->
  evaluate (InViMode ViInputMode.NAVIGATION) cli = Ok true
  /\ (forall m : string,
        m <> ViInputMode.NAVIGATION -> evaluate (InViMode m) cli = Ok false).
Proof.
  intros Hro Hop Hdi.
  assert (E : forall m, evaluate (InViMode m) cli
                        = Ok (String.eqb ViInputMode.NAVIGATION m)).
  { intros m. unfold InViMode. rewrite evaluate_pure.
    unfold Call.InViMode. now rewrite Hro, Hop, Hdi. }
  split.
  - rewrite E. now rewrite String.eqb_refl.
  - intros m Hm. rewrite E. f_equal.
    apply String.eqb_neq. congruence.
Qed.

Lemma InViMode_read_only_navigation_witness :
  evaluate (InViMode ViInputMode.NAVIGATION)
    (snapshot EditingMode.VI true None false ViInputMode.REPLACE) = Ok true
  /\ (forall m : string,
        m <> ViInputMode.NAVIGATION ->
        evaluate (InViMode m)
          (snapshot EditingMode.VI true None false ViInputMode.REPLACE) = Ok false).
Proof.
  apply (InViMode_read_only_navigation
           (snapshot EditingMode.VI true None false ViInputMode.REPLACE));
    reflexivity.
Defined.

(** C3, the claim as stated fails: [InViMode.__call__] never reads
    [cli.editing_mode].  In Emacs mode, with a writable buffer, nothing
    pending and [vi_state.input_mode] holding INSERT, [InViMode(INSERT)]
    answers true. *)
Lemma InViMode_true_in_emacs_mode :
  editing_mode
    (snapshot EditingMode.EMACS false None false ViInputMode.INSERT)
  = EditingMode.EMACS
  /\ evaluate (InViMode ViInputMode.INSERT)
       (snapshot EditingMode.EMACS false None false ViInputMode.INSERT)
     = Ok true
  /\ ~ (forall (m : string) (cli : CommandLineInterface),
          editing_mode cli = EditingMode.EMACS ->
          evaluate (InViMode m) cli = Ok false).
Proof.
  split; [reflexivity | split; [reflexivity |]].
  intros H.
  specialize (H ViInputMode.INSERT
                (snapshot EditingMode.EMACS false None false ViInputMode.INSERT)
                eq_refl).
  discriminate H.
Qed.

(** C3, amended.  [InViMode(m)] answers true exactly when no operator is
    pending, no digraph is awaited and the effective input mode
    (NAVIGATION on a read-only buffer, else [vi_state.input_mode]) is [m];
    the editing mode is not consulted, so the answer is the same in Emacs
    and in Vi mode. *)
Theorem InViMode_ignores_editing_mode (m : string) (cli : CommandLineInterface) :
  (evaluate (InViMode m) cli = Ok true <->
   operator_func (vi_state cli) = None /\
   waiting_for_digraph (vi_state cli) = false /\
   effective_input_mode cli = m)
  /\ (forall em : EditingMode.t,
        evaluate (InViMode m) (with_editing_mode em cli)
        = evaluate (InViMode m) cli).
Proof.
  split.
  - apply InViMode_true_iff.
  - intros em. reflexivity.
Qed.

(** C10.  Two distinct modes are never both reported: for [m1 <> m2],
    [InViMode(m1)] and [InViMode(m2)] do not both answer true on the same
    snapshot. *)
Theorem InViMode_mutually_exclusive (m1 m2 : string) (cli : CommandLineInterface) :
  m1 <> m2 ->
  ~ (evaluate (InViMode m1) cli = Ok true /\ evaluate (InViMode m2) cli = Ok true).
Proof.
  intros Hne [H1 H2].
  apply InViMode_true_iff in H1, H2.
  destruct H1 as (_ & _ & E1), H2 as (_ & _ & E2).
  congruence.
Qed.

Lemma InViMode_mutually_exclusive_witness :
  ViInputMode.INSERT <> ViInputMode.NAVIGATION
  /\ ~ (evaluate (InViMode ViInputMode.INSERT)
         (snapshot EditingMode.VI false None false ViInputMode.INSERT) = Ok true
       /\ evaluate (InViMode ViInputMode.NAVIGATION)
            (snapshot EditingMode.VI false None false ViInputMode.INSERT) = Ok true).
Proof.
  split.
  - discriminate.
  - apply InViMode_mutually_exclusive. discriminate.
Defined.

(* ------------------------------------------------------------------ *)
(** ** [CanInsert] *)

(** C4.  [CanInsert] answers true when the editing mode is not Vi; in Vi
    mode it answers true if and only if no operator is pending and
    [vi_state.input_mode] is INSERT. *)
Theorem CanInsert_spec (cli : CommandLineInterface) :
  (editing_mode cli <> EditingMode.VI -> evaluate CanInsert cli = Ok true)
  /\ (editing_mode cli = EditingMode.VI ->
      (evaluate CanInsert cli = Ok true <->
       operator_func (vi_state cli) = None
       /\ input_mode (vi_state cli) = ViInputMode.INSERT)).
Proof.
  unfold CanInsert. rewrite evaluate_pure. unfold Call.CanInsert.
  split.
  - intros H. apply EditingMode_not_VI in H. now rewrite H.
  - intros H. rewrite H. simpl.
    rewrite Ok_inj, andb_true_iff, negb_true_iff, truthy_false, String.eqb_eq.
    tauto.
Qed.

(** In Vi mode the answer of [CanInsert] as a boolean. *)
Lemma CanInsert_vi (cli : CommandLineInterface) :
  editing_mode cli = EditingMode.VI ->
  evaluate CanInsert cli
  = Ok (negb (truthy (operator_func (vi_state cli)))
        && String.eqb (input_mode (vi_state cli)) ViInputMode.INSERT).
Proof.
  intros H. unfold CanInsert. rewrite evaluate_pure.
  unfold Call.CanInsert. now rewrite H.
Qed.

(** C5, the claim as stated fails on its last part: [CanInsert] reads the
    raw [vi_state.input_mode] and never [read_only()], so on a read-only
    buffer in Vi insert mode it answers true. *)
Lemma CanInsert_true_on_read_only :
  editing_mode (snapshot EditingMode.VI true None false ViInputMode.INSERT)
  = EditingMode.VI
  /\ read_only
       (current_buffer (snapshot EditingMode.VI true None false ViInputMode.INSERT))
     = true
  /\ input_mode
       (vi_state (snapshot EditingMode.VI true None false ViInputMode.INSERT))
     = ViInputMode.INSERT
  /\ operator_func
       (vi_state (snapshot EditingMode.VI true None false ViInputMode.INSERT))
     = None
  /\ waiting_for_digraph
       (vi_state (snapshot EditingMode.VI true None false ViInputMode.INSERT))
     = false
  /\ evaluate CanInsert
       (snapshot EditingMode.VI true None false ViInputMode.INSERT)
     = Ok true
  /\ evaluate CanInsert
       (snapshot EditingMode.VI true None false ViInputMode.INSERT)
     <> Ok false.
Proof. repeat split; discriminate. Qed.

(** C5, amended.  On a read-only buffer in Vi mode, with
    [vi_state.input_mode] INSERT and nothing pending,
    [InViMode(NAVIGATION)] answers true, [InViMode(INSERT)] answers false,
    and [CanInsert] answers true. *)
Theorem read_only_insert_scenario (cli : CommandLineInterface) :
  read_only (current_buffer cli) = true ->
  input_mode (vi_state cli) = ViInputMode.INSERT ->
  editing_mode cli = EditingMode.VI ->
  operator_func (vi_state cli) = None ->
  waiting_for_digraph (vi_state cli) = false ->
  evaluate (InViMode ViInputMode.NAVIGATION) cli = Ok true
  /\ evaluate (InViMode ViInputMode.INSERT) cli = Ok false
  /\ evaluate CanInsert cli = Ok true.
Proof.
  intros Hro Hmode Hvi Hop Hdi.
  unfold InViMode. rewrite !evaluate_pure, (CanInsert_vi cli Hvi).
  unfold Call.InViMode. rewrite Hro, Hop, Hdi, Hmode.
  repeat split.
Qed.

Lemma read_only_insert_scenario_witness :
  evaluate (InViMode ViInputMode.NAVIGATION)
    (snapshot EditingMode.VI true None false ViInputMode.INSERT) = Ok true
  /\ evaluate (InViMode ViInputMode.INSERT)
       (snapshot EditingMode.VI true None false ViInputMode.INSERT) = Ok false
  /\ evaluate CanInsert
       (snapshot EditingMode.VI true None false ViInputMode.INSERT) = Ok true.
Proof.
  apply (read_only_insert_scenario
           (snapshot EditingMode.VI true None false ViInputMode.INSERT));
    reflexivity.
Defined.

(** C9.  [CanInsert] does not consult [waiting_for_digraph]: changing the
    flag never changes its answer, and there is a snapshot in Vi mode,
    awaiting a digraph, with no operator pending and
    [vi_state.input_mode] INSERT, on which [CanInsert] answers true while
    [InViMode(INSERT)] answers false. *)
Theorem CanInsert_ignores_digraph :
  (forall (b : bool) (cli : CommandLineInterface),
      evaluate CanInsert (with_waiting_for_digraph b cli)
      = evaluate CanInsert cli)
  /\ exists cli : CommandLineInterface,
      editing_mode cli = EditingMode.VI
      /\ waiting_for_digraph (vi_state cli) = true
      /\ operator_func (vi_state cli) = None
      /\ input_mode (vi_state cli) = ViInputMode.INSERT
      /\ evaluate CanInsert cli = Ok true
      /\ evaluate (InViMode ViInputMode.INSERT) cli = Ok false.
Proof.
  split.
  - intros b cli. reflexivity.
  - exists (snapshot EditingMode.VI false None true ViInputMode.INSERT).
    repeat split.
Qed.

(* ------------------------------------------------------------------ *)
(** ** [IsDone] *)

(** C6.  [IsDone] answers true if and only if at least one of
    [IsReturning], [IsAborting], [IsExiting] does, whatever the combination
    of the three flags. *)
Theorem IsDone_iff (cli : CommandLineInterface) :
  evaluate IsDone cli = Ok true <->
  evaluate IsReturning cli = Ok true
  \/ evaluate IsAborting cli = Ok true
  \/ evaluate IsExiting cli = Ok true.
Proof.
  unfold IsDone, IsReturning, IsAborting, IsExiting.
  rewrite !evaluate_pure, !Ok_inj.
  unfold Call.IsDone, Call.IsReturning, Call.IsAborting, Call.IsExiting, is_done.
  rewrite !orb_true_iff. tauto.
Qed.

(* ------------------------------------------------------------------ *)
(** ** The combinators *)

(** C7.  For filters [f] and [g] that answer [a] and [b] on a snapshot,
    [f AND g] answers [a && b], [f OR g] answers [a || b] and [NOT f]
    answers [negb a]. *)
Theorem combinators_boolean_algebra
    (f g : Filter) (cli : CommandLineInterface) (a b : bool) :
  evaluate f cli = Ok a ->
  evaluate g cli = Ok b ->
  evaluate (AND f g) cli = Ok (a && b)
  /\ evaluate (OR f g) cli = Ok (a || b)
  /\ evaluate (NOT f) cli = Ok (negb a).
Proof.
  intros Hf Hg.
  rewrite evaluate_AND, evaluate_OR, evaluate_NOT, Hf, Hg.
  destruct a; repeat split.
Qed.

Lemma combinators_boolean_algebra_witness :
  evaluate (AND (InViMode ViInputMode.INSERT) (NOT IsReadOnly))
    (snapshot EditingMode.VI false None false ViInputMode.INSERT)
  = Ok (true && true)
  /\ evaluate (OR (InViMode ViInputMode.INSERT) (NOT IsReadOnly))
       (snapshot EditingMode.VI false None false ViInputMode.INSERT)
     = Ok (true || true)
  /\ evaluate (NOT (InViMode ViInputMode.INSERT))
       (snapshot EditingMode.VI false None false ViInputMode.INSERT)
     = Ok (negb true).
Proof.
  apply (combinators_boolean_algebra
           (InViMode ViInputMode.INSERT) (NOT IsReadOnly)
           (snapshot EditingMode.VI false None false ViInputMode.INSERT));
    reflexivity.
Defined.

(** C8.  AND short-circuits: when [f] answers false on a snapshot,
    [f AND g] answers false there and calls exactly the leaves [f] calls,
    none of [g]; so it does not raise even when evaluating [g] would. *)
Theorem AND_short_circuit (f g : Filter) (cli : CommandLineInterface) :
  evaluate f cli = Ok false ->
  evaluate (AND f g) cli = Ok false
  /\ calls (AND f g) cli = calls f cli.
Proof.
  intros Hf. rewrite evaluate_AND, calls_AND, Hf. split; reflexivity.
Qed.

Lemma AND_short_circuit_witness :
  evaluate raising (snapshot EditingMode.VI true None false ViInputMode.INSERT)
  = Raise "RuntimeError"
  /\ evaluate (AND (InViMode ViInputMode.INSERT) raising)
       (snapshot EditingMode.VI true None false ViInputMode.INSERT)
     = Ok false
  /\ calls (AND (InViMode ViInputMode.INSERT) raising)
       (snapshot EditingMode.VI true None false ViInputMode.INSERT)
     = calls (InViMode ViInputMode.INSERT)
         (snapshot EditingMode.VI true None false ViInputMode.INSERT).
Proof.
  split; [reflexivity |].
  apply (AND_short_circuit (InViMode ViInputMode.INSERT) raising).
  reflexivity.
Defined.

(* ------------------------------------------------------------------ *)
(** ** Further properties of the filters *)

Lemma append_inv_tail (t s1 s2 : string) :
  (s1 ++ t = s2 ++ t -> s1 = s2)%string.
Proof.
  assert (L : forall a b, String.length (a ++ b) = String.length a + String.length b).
  { induction a as [|c a IH]; intros b; simpl; [reflexivity | now rewrite IH]. }
  revert s2. induction s1 as [|c s1 IH]; intros [|d s2] H; simpl in H.
  - reflexivity.
  - apply (f_equal String.length) in H. simpl in H. rewrite L in H.
    exfalso. clear -H. induction (String.length t); simpl in *.
    + discriminate.
    + rewrite <- plus_n_Sm in H. injection H as H. auto.
  - apply (f_equal String.length) in H. simpl in H. rewrite L in H.
    exfalso. clear -H. induction (String.length t); simpl in *.
    + discriminate.
    + rewrite <- plus_n_Sm in H. injection H as H. auto.
  - injection H as Hc Hs. f_equal; auto.
Qed.

Lemma py_in_In (x : string) (l : list string) : py_in x l = true <-> In x l.
Proof.
  unfold py_in. rewrite existsb_exists. split.
  - intros (y & Hy & E). apply String.eqb_eq in E. now subst.
  - intros H. exists x. split; [assumption | apply String.eqb_refl].
Qed.

(** X1.  Exactly one buffer name has the focus: [HasFocus] of the current
    buffer name answers true, and two names that both answer true are the
    same name. *)
Theorem HasFocus_exactly_one (cli : CommandLineInterface) :
  evaluate (HasFocus (current_buffer_name cli)) cli = Ok true
  /\ (forall a b : string,
        evaluate (HasFocus a) cli = Ok true ->
        evaluate (HasFocus b) cli = Ok true ->
        a = b).
Proof.
  unfold HasFocus. split.
  - rewrite evaluate_pure. unfold Call.HasFocus. now rewrite String.eqb_refl.
  - intros a b. rewrite !evaluate_pure, !Ok_inj. unfold Call.HasFocus.
    rewrite !String.eqb_eq. congruence.
Qed.

(** X2.  [InFocusStack(name)] answers true exactly when [name] occurs in
    the focus stack; on an empty stack it answers false for every name. *)
Theorem InFocusStack_membership (name : string) (cli : CommandLineInterface) :
  (evaluate (InFocusStack name) cli = Ok true <-> In name (focus_stack (buffers cli)))
  /\ (focus_stack (buffers cli) = [] -> evaluate (InFocusStack name) cli = Ok false).
Proof.
  unfold InFocusStack. rewrite evaluate_pure, Ok_inj. unfold Call.InFocusStack.
  split.
  - apply py_in_In.
  - intros E. now rewrite E.
Qed.

(** X3.  [InFocusStack] looks at which names are on the stack only: two
    snapshots whose stacks hold the same names, in any order and any
    number of times, get the same answer. *)
Theorem InFocusStack_order_irrelevant
    (name : string) (cli cli' : CommandLineInterface) :
  (forall x : string,
      In x (focus_stack (buffers cli)) <-> In x (focus_stack (buffers cli'))) ->
  evaluate (InFocusStack name) cli = evaluate (InFocusStack name) cli'.
Proof.
  intros H. unfold InFocusStack. rewrite !evaluate_pure. f_equal.
  unfold Call.InFocusStack.
  apply eq_true_iff_eq. rewrite !py_in_In. apply H.
Qed.

Lemma InFocusStack_order_irrelevant_witness :
  evaluate (InFocusStack "SEARCH_BUFFER")
    {| current_buffer_name := "SEARCH_BUFFER";
       buffers := {| focus_stack := ["DEFAULT_BUFFER"; "SEARCH_BUFFER"] |};
       current_buffer := plain_buffer false;
       input_processor := {| arg := None |};
       is_searching := true;
       is_returning := false;
       is_aborting := false;
       is_exiting := false;
       renderer := {| height_is_known := true |};
       vi_state := {| operator_func := None;
                      waiting_for_digraph := false;
                      input_mode := ViInputMode.INSERT |};
       editing_mode := EditingMode.EMACS |}
  = evaluate (InFocusStack "SEARCH_BUFFER")
      {| current_buffer_name := "DEFAULT_BUFFER";
         buffers := {| focus_stack :=
                         ["SEARCH_BUFFER"; "DEFAULT_BUFFER"; "SEARCH_BUFFER"] |};
         current_buffer := plain_buffer false;
         input_processor := {| arg := None |};
         is_searching := false;
         is_returning := false;
         is_aborting := false;
         is_exiting := false;
         renderer := {| height_is_known := true |};
         vi_state := {| operator_func := None;
                        waiting_for_digraph := false;
                        input_mode := ViInputMode.INSERT |};
         editing_mode := EditingMode.EMACS |}.
Proof.
  apply InFocusStack_order_irrelevant.
  intros x; simpl; tauto.
Defined.

(** X4.  Exactly one editing mode is active: [InEditingMode] of the
    snapshot's editing mode answers true, and two modes that both answer
    true are the same mode. *)
Theorem InEditingMode_exactly_one (cli : CommandLineInterface) :
  evaluate (InEditingMode (editing_mode cli)) cli = Ok true
  /\ (forall a b : EditingMode.t,
        evaluate (InEditingMode a) cli = Ok true ->
        evaluate (InEditingMode b) cli = Ok true ->
        a = b).
Proof.
  unfold InEditingMode. split.
  - rewrite evaluate_pure. unfold Call.InEditingMode.
    f_equal. now apply EditingMode_eqb_eq.
  - intros a b. rewrite !evaluate_pure, !Ok_inj. unfold Call.InEditingMode.
    rewrite !EditingMode_eqb_eq. congruence.
Qed.

(** X5.  With nothing pending, exactly one Vi mode is reported: there is
    one and only one [m] for which [InViMode(m)] answers true. *)
Theorem InViMode_exactly_one (cli : CommandLineInterface) :
  operator_func (vi_state cli) = None ->
  waiting_for_digraph (vi_state cli) = false ->
  exists! m : string, evaluate (InViMode m) cli = Ok true.
Proof.
  intros Hop Hdi. exists (effective_input_mode cli). split.
  - apply InViMode_true_iff. auto.
  - intros m H. apply InViMode_true_iff in H. tauto.
Qed.

Lemma InViMode_exactly_one_witness :
  exists! m : string,
    evaluate (InViMode m)
      (snapshot EditingMode.VI false None false ViInputMode.REPLACE) = Ok true.
Proof.
  apply (InViMode_exactly_one
           (snapshot EditingMode.VI false None false ViInputMode.REPLACE));
    reflexivity.
Defined.

(** X6.  [InViMode] reads four attributes only: two snapshots that agree
    on [operator_func], [waiting_for_digraph], [read_only()] and
    [vi_state.input_mode] get the same answer for every mode, whatever
    else differs. *)
Theorem InViMode_frame (m : string) (cli cli' : CommandLineInterface) :
  operator_func (vi_state cli) = operator_func (vi_state cli') ->
  waiting_for_digraph (vi_state cli) = waiting_for_digraph (vi_state cli') ->
  read_only (current_buffer cli) = read_only (current_buffer cli') ->
  input_mode (vi_state cli) = input_mode (vi_state cli') ->
  evaluate (InViMode m) cli = evaluate (InViMode m) cli'.
Proof.
  intros Hop Hdi Hro Hmode. unfold InViMode. rewrite !evaluate_pure.
  unfold Call.InViMode. now rewrite Hop, Hdi, Hro, Hmode.
Qed.

Lemma InViMode_frame_witness :
  evaluate (InViMode ViInputMode.INSERT)
    (snapshot EditingMode.VI false None false ViInputMode.INSERT)
  = evaluate (InViMode ViInputMode.INSERT)
      {| current_buffer_name := "SEARCH_BUFFER";
         buffers := {| focus_stack := [] |};
         current_buffer :=
           {| selection_state := Some {| original_cursor_position := 3%Z |};
              complete_state := None;
              is_multiline := true;
              read_only := false;
              validation_error := Some {| message := "invalid" |} |};
         input_processor := {| arg := Some 2%Z |};
         is_searching := true;
         is_returning := false;
         is_aborting := true;
         is_exiting := false;
         renderer := {| height_is_known := false |};
         vi_state := {| operator_func := None;
                        waiting_for_digraph := false;
                        input_mode := ViInputMode.INSERT |};
         editing_mode := EditingMode.EMACS |}.
Proof.
  apply InViMode_frame; reflexivity.
Defined.

(** X7.  [CanInsert] reads three attributes only: two snapshots that agree
    on [editing_mode], [operator_func] and [vi_state.input_mode] get the
    same answer; in particular the read-only flag, the digraph flag and
    the selection play no part. *)
Theorem CanInsert_frame (cli cli' : CommandLineInterface) :
  editing_mode cli = editing_mode cli' ->
  operator_func (vi_state cli) = operator_func (vi_state cli') ->
  input_mode (vi_state cli) = input_mode (vi_state cli') ->
  evaluate CanInsert cli = evaluate CanInsert cli'.
Proof.
  intros Hem Hop Hmode. unfold CanInsert. rewrite !evaluate_pure.
  unfold Call.CanInsert. now rewrite Hem, Hop, Hmode.
Qed.

Lemma CanInsert_frame_witness :
  evaluate CanInsert (snapshot EditingMode.VI false None false ViInputMode.INSERT)
  = evaluate CanInsert (snapshot EditingMode.VI true None true ViInputMode.INSERT).
Proof.
  apply CanInsert_frame; reflexivity.
Defined.

(** X8.  Vi insert mode allows insertion: on every snapshot where
    [InViMode(INSERT)] answers true, [CanInsert] answers true as well. *)
Theorem InViMode_insert_implies_CanInsert (cli : CommandLineInterface) :
  evaluate (InViMode ViInputMode.INSERT) cli = Ok true ->
  evaluate CanInsert cli = Ok true.
Proof.
  intros H. apply InViMode_true_iff in H. destruct H as (Hop & _ & Heff).
  unfold CanInsert. rewrite evaluate_pure. f_equal. unfold Call.CanInsert.
  rewrite Hop. simpl.
  unfold effective_input_mode in Heff.
  destruct (read_only (current_buffer cli)).
  - discriminate Heff.
  - rewrite Heff. simpl. apply orb_true_r.
Qed.

Lemma InViMode_insert_implies_CanInsert_witness :
  evaluate CanInsert
    (snapshot EditingMode.VI false None false ViInputMode.INSERT) = Ok true.
Proof.
  apply InViMode_insert_implies_CanInsert. reflexivity.
Defined.

(** X9.  In Vi mode, on a writable buffer and with no digraph awaited,
    [CanInsert] and [InViMode(INSERT)] give the same answer. *)
Theorem CanInsert_agrees_with_InViMode_insert (cli : CommandLineInterface) :
  editing_mode cli = EditingMode.VI ->
  read_only (current_buffer cli) = false ->
  waiting_for_digraph (vi_state cli) = false ->
  evaluate CanInsert cli = evaluate (InViMode ViInputMode.INSERT) cli.
Proof.
  intros Hvi Hro Hdi. rewrite (CanInsert_vi cli Hvi).
  unfold InViMode. rewrite evaluate_pure. f_equal.
  unfold Call.InViMode. rewrite Hro, Hdi, orb_false_r.
  destruct (truthy (operator_func (vi_state cli))); reflexivity.
Qed.

Lemma CanInsert_agrees_with_InViMode_insert_witness :
  evaluate CanInsert
    (snapshot EditingMode.VI false (Some (operator "change")) false
              ViInputMode.INSERT)
  = evaluate (InViMode ViInputMode.INSERT)
      (snapshot EditingMode.VI false (Some (operator "change")) false
                ViInputMode.INSERT).
Proof.
  apply CanInsert_agrees_with_InViMode_insert; reflexivity.
Defined.

(** X10.  In Vi mode, when [CanInsert] and [InViMode(m)] both answer true,
    either [m] is INSERT and the buffer is writable, or [m] is NAVIGATION
    on a read-only buffer whose [vi_state.input_mode] is INSERT; no other
    mode is ever reported together with [CanInsert]. *)
Theorem CanInsert_with_InViMode (m : string) (cli : CommandLineInterface) :
  editing_mode cli = EditingMode.VI ->
  evaluate CanInsert cli = Ok true ->
  evaluate (InViMode m) cli = Ok true ->
  (m = ViInputMode.INSERT /\ read_only (current_buffer cli) = false)
  \/ (m = ViInputMode.NAVIGATION
      /\ read_only (current_buffer cli) = true
      /\ input_mode (vi_state cli) = ViInputMode.INSERT).
Proof.
  intros Hvi Hci Hm.
  rewrite (CanInsert_vi cli Hvi), Ok_inj, andb_true_iff, String.eqb_eq in Hci.
  destruct Hci as [_ Hraw].
  apply InViMode_true_iff in Hm. destruct Hm as (_ & _ & Heff).
  unfold effective_input_mode in Heff.
  destruct (read_only (current_buffer cli)).
  - right. auto.
  - left. split; congruence.
Qed.

Lemma CanInsert_with_InViMode_witness :
  (ViInputMode.NAVIGATION = ViInputMode.INSERT
   /\ read_only
        (current_buffer
           (snapshot EditingMode.VI true None false ViInputMode.INSERT)) = false)
  \/ (ViInputMode.NAVIGATION = ViInputMode.NAVIGATION
      /\ read_only
           (current_buffer
              (snapshot EditingMode.VI true None false ViInputMode.INSERT)) = true
      /\ input_mode
           (vi_state
              (snapshot EditingMode.VI true None false ViInputMode.INSERT))
         = ViInputMode.INSERT).
Proof.
  apply (CanInsert_with_InViMode ViInputMode.NAVIGATION
           (snapshot EditingMode.VI true None false ViInputMode.INSERT));
    reflexivity.
Defined.

(* ------------------------------------------------------------------ *)
(** ** Properties of [__repr__] *)

Lemma quoted_inj (a b : string) : quoted a = quoted b -> a = b.
Proof.
  unfold quoted. intros H. simpl in H. injection H as H.
  now apply append_inv_tail in H.
Qed.

Lemma quoted_mode_inj (a b : EditingMode.t) : quoted_mode a = quoted_mode b -> a = b.
Proof. destruct a, b; simpl; intros H; try reflexivity; discriminate H. Qed.

(** X11.  The representation identifies the class and what was printed
    for its argument: two instances with the same [__repr__] string are of
    the same class, and their arguments print the same, whatever [%r]
    prints. *)
Theorem repr_determines_class_and_args
    (py_repr : string -> string) (mode_repr : EditingMode.t -> string)
    (f g : Cls.t) :
  repr py_repr mode_repr f = repr py_repr mode_repr g ->
  Cls.class_name f = Cls.class_name g
  /\ args_repr py_repr mode_repr f = args_repr py_repr mode_repr g.
Proof.
  intros H.
  destruct f, g; simpl in H; try discriminate H;
    try (split; reflexivity);
    injection H as H; apply append_inv_tail in H; split; simpl; congruence.
Qed.

Lemma repr_determines_class_and_args_witness :
  Cls.class_name (Cls.InViMode "navigation") = Cls.class_name (Cls.InViMode "navigation")
  /\ args_repr quoted quoted_mode (Cls.InViMode "navigation")
     = args_repr quoted quoted_mode (Cls.InViMode "navigation").
Proof.
  apply (repr_determines_class_and_args quoted quoted_mode).
  reflexivity.
Defined.

(** X12.  When [%r] prints different arguments differently, filters with
    the same [__repr__] string are the same class with the same arguments,
    and so answer alike on every snapshot. *)
Theorem repr_injective
    (py_repr : string -> string) (mode_repr : EditingMode.t -> string)
    (f g : Cls.t) :
  (forall a b : string, py_repr a = py_repr b -> a = b) ->
  (forall a b : EditingMode.t, mode_repr a = mode_repr b -> a = b) ->
  repr py_repr mode_repr f = repr py_repr mode_repr g ->
  f = g
  /\ (forall cli : CommandLineInterface,
        evaluate (filter_of f) cli = evaluate (filter_of g) cli).
Proof.
  intros Hs Hm H.
  assert (E : f = g).
  { destruct f, g; simpl in H; try discriminate H; try reflexivity;
      injection H as H; apply append_inv_tail in H; f_equal; auto. }
  split; [exact E | intros cli; now rewrite E].
Qed.

Lemma repr_injective_witness :
  Cls.HasFocus "DEFAULT_BUFFER" = Cls.HasFocus "DEFAULT_BUFFER"
  /\ (forall cli : CommandLineInterface,
        evaluate (filter_of (Cls.HasFocus "DEFAULT_BUFFER")) cli
        = evaluate (filter_of (Cls.HasFocus "DEFAULT_BUFFER")) cli).
Proof.
  apply (repr_injective quoted quoted_mode).
  - exact quoted_inj.
  - exact quoted_mode_inj.
  - reflexivity.
Defined.
